(** * SwapSDK: the request/response mediation layer of src/SwapSDK.ts

    A shallow embedding of the [SwapSDK] class: construction, the auth-token
    accessors, the two axios interceptors, the private [get]/[post] helpers
    and the seven endpoint methods.  JavaScript objects are finite maps, or
    lists of properties where the order of the properties matters; HTTP
    headers are finite maps from normalized header names; [async] methods
    are computations in a state-and-rejection monad over the client object
    and the list of requests handed to the HTTP adapter. *)

From Stdlib Require Import ZArith Ascii String List.
From Stdlib Require Import Floats.SpecFloat.
From stdpp Require Import base option strings list gmap fin_maps.

Set Warnings "-register-all".
Local Open Scope string_scope.
Local Open Scope list_scope.

(** ** JavaScript values *)

Module JS.

(** A JavaScript [number] is an IEEE-754 binary64 datum. *)
Definition number : Type := spec_float.

(** The number denoted by an integer literal such as [10000]. *)
Definition Number_of_Z (z : Z) : number := binary_normalize 53 1024 z 0 false.

(** Values that cross the SDK untyped ([any] / [unknown] in the source):
    response bodies, query parameters and request bodies. *)
Inductive JSValue : Type :=
| JUndefined
| JNull
| JBool (b : bool)
| JNum (x : number)
| JStr (s : string)
| JArr (elems : list JSValue)
| JObj (props : gmap string JSValue).

(** [ToBoolean]: the test performed by [if (v)] and by [v || w]. *)
Definition ToBoolean (v : JSValue) : bool :=
  match v with
  | JUndefined | JNull => false
  | JBool b => b
  | JNum (S754_zero _) | JNum S754_nan => false
  | JNum _ => true
  | JStr s => negb (String.eqb s "")
  | JArr _ | JObj _ => true
  end.

(** [a || b]: the left operand when it is truthy, else the right one. *)
Definition logical_or (a b : JSValue) : JSValue :=
  if ToBoolean a then a else b.

(** [v?.k] for a key [k] that no built-in prototype defines (the source
    uses it with [message], [error] and [code] only): [undefined] on
    [null] and [undefined], the own property of an object, and [undefined]
    on primitives and arrays, which find nothing under such a key. *)
Definition optional_member (v : JSValue) (k : string) : JSValue :=
  match v with
  | JUndefined | JNull => JUndefined
  | JObj props => default JUndefined (props !! k)
  | JBool _ | JNum _ | JStr _ | JArr _ => JUndefined
  end.

(** An object whose property values are strings ([Record<string, string>]),
    as the list of its properties, each name once, in the order in which
    they are enumerated: the order in which they were created (names that
    are array indices, which come first whenever created, are no concern
    of header names). *)
Definition StringRecord : Type := list (string * string).

(** [o[k] = v]: an existing property keeps its place and takes the new
    value, a new property goes to the end. *)
Fixpoint obj_set (k v : string) (o : StringRecord) : StringRecord :=
  match o with
  | [] => [(k, v)]
  | (k', v') :: o' =>
      if String.eqb k' k then (k', v) :: o' else (k', v') :: obj_set k v o'
  end.

(** [{ ...base, ...over }]: the properties of [over] are set on a copy of
    [base], one after the other. *)
Definition spread (base over : StringRecord) : StringRecord :=
  fold_left (fun o kv => obj_set (fst kv) (snd kv) o) over base.

Section Conversion.

(** ECMAScript's [ToString] on a value that is not a string (number
    formatting, array joining, [toString]/[valueOf] of objects) belongs
    to the runtime; [None] stands for a conversion that throws. *)
Variable ToString_other : JSValue -> option string.

(** [ToString]: a string converts to itself. *)
Definition ToString (v : JSValue) : option string :=
  match v with
  | JStr s => Some s
  | _ => ToString_other v
  end.

End Conversion.

End JS.

Export JS.

(** ** The axios surface the SDK relies on *)

Module Axios.

Inductive Method : Type := GET | POST.

(** The configuration given to [axios.create]. *)
Record CreateAxiosDefaults : Type := {
  create_baseURL : string;
  create_timeout : number;
  create_headers : StringRecord;
}.

(** The defaults an instance holds.  Header names that axios takes for the
    same header are one entry: [def_headers] maps the normalized name of a
    header to its value. *)
Record AxiosDefaults : Type := {
  def_baseURL : string;
  def_timeout : number;
  def_headers : gmap string string;
}.

(** The instance returned by [axios.create].  Its two interceptor slots
    are filled once, by the SDK constructor, with the handlers
    [SwapSDK.request_onFulfilled] and [SwapSDK.response_onRejected]. *)
Record AxiosInstance : Type := {
  defaults : AxiosDefaults;
}.

(** What a call site passes: [client.get(url, { params })] and
    [client.post(url, data)]. *)
Record AxiosRequestConfig : Type := {
  req_method : Method;
  req_url : string;
  req_params : option (gmap string JSValue);
  req_data : option (gmap string JSValue);
}.

(** The configuration of one request after the instance defaults have been
    merged in; request interceptors map it to the configuration that is
    handed to the adapter. *)
Record InternalAxiosRequestConfig : Type := {
  cfg_baseURL : string;
  cfg_timeout : number;
  cfg_headers : gmap string string;
  cfg_method : Method;
  cfg_url : string;
  cfg_params : option (gmap string JSValue);
  cfg_data : option (gmap string JSValue);
}.

(** Every request starts from the defaults of the instance, so the default
    headers travel with every request, and it gets its own copy of them:
    what an interceptor writes into [config.headers] never reaches
    [defaults].  The headers axios adds by itself ([Accept] and the like)
    are left out. *)
Definition mergeConfig (d : AxiosDefaults) (c : AxiosRequestConfig)
  : InternalAxiosRequestConfig :=
  {| cfg_baseURL := def_baseURL d;
     cfg_timeout := def_timeout d;
     cfg_headers := def_headers d;
     cfg_method := req_method c;
     cfg_url := req_url c;
     cfg_params := req_params c;
     cfg_data := req_data c |}.

Section Headers.

(** The name under which axios files a header ([normalizeHeader]: the name
    trimmed and in lower case).  Two names with the same normalized name are
    the same header, and of two values written for one header the one
    written last is the one sent. *)
Variable normalizeHeader : string -> string.

(** The headers axios makes of an object, added to [h]: the properties are
    written one after the other, in the order of their enumeration. *)
Definition set_headers (h : gmap string string) (o : StringRecord)
  : gmap string string :=
  fold_left (fun h kv => <[normalizeHeader (fst kv) := snd kv]> h) o h.

(** [axios.create(config)]. *)
Definition create (config : CreateAxiosDefaults) : AxiosInstance :=
  {| defaults :=
       {| def_baseURL := create_baseURL config;
          def_timeout := create_timeout config;
          def_headers := set_headers ∅ (create_headers config) |} |}.

(** [config.headers[k] = v], as the request then carries it: the value of
    header [k], in place of the one it had under whatever spelling. *)
Definition set_header (k v : string) (c : InternalAxiosRequestConfig)
  : InternalAxiosRequestConfig :=
  {| cfg_baseURL := cfg_baseURL c;
     cfg_timeout := cfg_timeout c;
     cfg_headers := <[normalizeHeader k := v]> (cfg_headers c);
     cfg_method := cfg_method c;
     cfg_url := cfg_url c;
     cfg_params := cfg_params c;
     cfg_data := cfg_data c |}.

End Headers.

Record AxiosResponse : Type := {
  status : Z;
  data : JSValue;
}.

(** The request object of the platform (an [XMLHttpRequest] or a
    [ClientRequest]); the SDK only tests whether the error carries one. *)
Inductive ClientRequest : Type := request_object.

(** The reason axios rejects with: [response] is set when the server
    answered, [request] when the request left the client. *)
Record AxiosError : Type := {
  error_message : string;
  error_request : option ClientRequest;
  error_response : option AxiosResponse;
}.

(** How the adapter settles one dispatched request. *)
Inductive AdapterOutcome : Type :=
| Responds (response : AxiosResponse)
| Fails (error : AxiosError).

End Axios.

Export Axios.

(** ** The SDK: data *)

Definition AuthToken : Type := string.

(** [SwapSDKOptions]: every field may be left out. *)
Record SwapSDKOptions : Type := {
  baseURL : option string;
  timeout : option number;
  headers : option StringRecord;
}.

(** [class SwapAPIError extends Error]: [code] holds whatever the second
    constructor argument was, [undefined] when there was none. *)
Record SwapAPIError : Type := {
  name : string;
  message : string;
  code : JSValue;
}.

(** What an endpoint method can reject with: the normalized error, or the
    [TypeError] of a failed string conversion inside its constructor. *)
Inductive Exception : Type :=
| Thrown_SwapAPIError (e : SwapAPIError)
| Thrown_TypeError.

(** The fields of a [SwapSDK] object. *)
Record SwapSDK : Type := {
  client : AxiosInstance;
  authToken : option AuthToken;
}.

(** [{}]: the options of a constructor call without an argument. *)
Definition no_options : SwapSDKOptions :=
  {| baseURL := None; timeout := None; headers := None |}.

(** ** Asynchronous methods *)

(** The world an [async] method runs in: the client object it belongs to
    and the requests handed to the adapter so far, oldest first. *)
Record World : Type := {
  this : SwapSDK;
  wire : list InternalAxiosRequestConfig;
}.

Inductive Settled (A : Type) : Type :=
| Resolved (value : A)
| Rejected (reason : Exception).

Arguments Resolved {A} value.
Arguments Rejected {A} reason.

(** An awaited promise: it settles and leaves a world behind. *)
Definition Promise (A : Type) : Type := World -> Settled A * World.

#[global] Instance Promise_ret : MRet Promise :=
  fun A (a : A) (w : World) => (Resolved a, w).

(** [await]: a rejection of the awaited promise rejects the caller. *)
#[global] Instance Promise_bind : MBind Promise :=
  fun A B (k : A -> Promise B) (m : Promise A) (w : World) =>
    match m w with
    | (Resolved a, w') => k a w'
    | (Rejected e, w') => (Rejected e, w')
    end.

(** ** Callers *)

(** One invocation of an endpoint method, with its arguments. *)
Inductive Endpoint : Type :=
| GetCurrencies
| GetExchangeRate (fromCurrency toCurrency : string) (amount : number)
| GetExchangeRange (fromCurrency toCurrency : string)
| CreateExchange (exchangeData : gmap string JSValue)
| GetExchangeStatus (swapId : string)
| GetSwapHistory
| GetSwapDetails (swapId : string).

(** A statement of a caller that awaits each call before its next step. *)
Inductive Statement : Type :=
| SetAuthToken (token : AuthToken)
| ClearAuthToken
| Await (e : Endpoint).

(** ** The SDK: behaviour *)

(** The token accessors. *)
Definition setAuthToken (token : AuthToken) (sdk : SwapSDK) : SwapSDK :=
  {| client := client sdk; authToken := Some token |}.

Definition clearAuthToken (sdk : SwapSDK) : SwapSDK :=
  {| client := client sdk; authToken := None |}.

Definition getAuthToken (sdk : SwapSDK) : option AuthToken :=
  authToken sdk.

Section Runtime.

(** The normalization of header names, see [Axios.set_headers]. *)
Variable normalizeHeader : string -> string.

(** String conversion of non-string values, see [JS.ToString]. *)
Variable ToString_other : JSValue -> option string.

(** The HTTP adapter behind the axios instance, that is, the network and
    the backend: how the request it is handed settles, given the requests
    dispatched before it. *)
Variable adapter :
  list InternalAxiosRequestConfig -> InternalAxiosRequestConfig -> AdapterOutcome.

(** [new SwapAPIError(message, code)].  [super(message)] stores the string
    conversion of [message] unless it is [undefined], in which case
    [message] is the inherited empty string.  [None]: the conversion threw. *)
Definition SwapAPIError_new (message' code' : JSValue) : option SwapAPIError :=
  match message' with
  | JUndefined =>
      Some {| name := "SwapAPIError"; message := ""; code := code' |}
  | _ =>
      msg ← ToString ToString_other message';
      Some {| name := "SwapAPIError"; message := msg; code := code' |}
  end.

(** [throw new SwapAPIError(message, code)]. *)
Definition throw_new_SwapAPIError (message' code' : JSValue) : Exception :=
  match SwapAPIError_new message' code' with
  | Some e => Thrown_SwapAPIError e
  | None => Thrown_TypeError
  end.

(** [constructor(options: SwapSDKOptions = {})]: destructuring with
    defaults, then [axios.create]; [authToken] starts out [undefined]. *)
Definition new_SwapSDK (options : option SwapSDKOptions) : SwapSDK :=
  let options := default no_options options in
  let baseURL' := default "https://zos.computer/" (baseURL options) in
  let timeout' := default (Number_of_Z 10000) (timeout options) in
  let headers' := default [] (headers options) in
  {| client :=
       Axios.create normalizeHeader
         {| create_baseURL := baseURL';
            create_timeout := timeout';
            create_headers :=
              spread [("Content-Type", "application/json")] headers' |};
     authToken := None |}.

(** Request interceptor, fulfilled handler:
    [if (this.authToken) config.headers['x-auth-token'] = this.authToken].
    An absent token is [undefined] and an empty one is the empty string;
    both are falsy.  The rejected handler of this interceptor passes its
    argument on and never runs, there being no interceptor before it. *)
Definition request_onFulfilled (sdk : SwapSDK)
    (config : InternalAxiosRequestConfig) : InternalAxiosRequestConfig :=
  match authToken sdk with
  | Some token =>
      if ToBoolean (JStr token)
      then set_header normalizeHeader "x-auth-token" token config
      else config
  | None => config
  end.

(** Response interceptor, fulfilled handler: [(response) => response]. *)
Definition response_onFulfilled (response : AxiosResponse) : AxiosResponse :=
  response.

(** Response interceptor, rejected handler: what it throws. *)
Definition response_onRejected (error : AxiosError) : Exception :=
  match error_response error with
  | Some response =>
      let data' := data response in
      let message' :=
        logical_or
          (logical_or (optional_member data' "message")
                      (optional_member data' "error"))
          (JStr "Unknown error occurred") in
      let code' := optional_member data' "code" in
      throw_new_SwapAPIError message' code'
  | None =>
      match error_request error with
      | Some _ =>
          throw_new_SwapAPIError
            (JStr "Network error: No response received from server")
            JUndefined
      | None =>
          throw_new_SwapAPIError
            (JStr ("Request error: " +:+ error_message error))
            JUndefined
      end
  end.

(** [this.client.request(config)]: merge the defaults, run the request
    interceptor, hand the result to the adapter, run the response
    interceptor on how it settles. *)
Definition client_request (c : AxiosRequestConfig) : Promise AxiosResponse :=
  fun w =>
    let config :=
      request_onFulfilled (this w)
        (mergeConfig (defaults (client (this w))) c) in
    let w' := {| this := this w; wire := wire w ++ [config] |} in
    match adapter (wire w) config with
    | Responds response => (Resolved (response_onFulfilled response), w')
    | Fails error => (Rejected (response_onRejected error), w')
    end.

(** [this.client.get(endpoint, { params })]. *)
Definition client_get (endpoint : string)
    (params : option (gmap string JSValue)) : Promise AxiosResponse :=
  client_request
    {| req_method := GET; req_url := endpoint;
       req_params := params; req_data := None |}.

(** [this.client.post(endpoint, data)]. *)
Definition client_post (endpoint : string)
    (body : option (gmap string JSValue)) : Promise AxiosResponse :=
  client_request
    {| req_method := POST; req_url := endpoint;
       req_params := None; req_data := body |}.

(** [private async get<T>(endpoint, params?)]. *)
Definition get (endpoint : string)
    (params : option (gmap string JSValue)) : Promise JSValue :=
  response ← client_get endpoint params;
  mret (data response).

(** [private async post<T>(endpoint, data?)]. *)
Definition post (endpoint : string)
    (body : option (gmap string JSValue)) : Promise JSValue :=
  response ← client_post endpoint body;
  mret (data response).

Definition getCurrencies : Promise JSValue :=
  get "/swap/currencies" None.

Definition getExchangeRate (fromCurrency toCurrency : string)
    (amount : number) : Promise JSValue :=
  post "/swap/estimate"
    (Some {[ "fromCurrency" := JStr fromCurrency;
             "toCurrency" := JStr toCurrency;
             "amount" := JNum amount ]}).

Definition getExchangeRange (fromCurrency toCurrency : string)
  : Promise JSValue :=
  get "/swap/range"
    (Some {[ "fromCurrency" := JStr fromCurrency;
             "toCurrency" := JStr toCurrency ]}).

(** [exchangeData] is the caller's object, passed on as it is. *)
Definition createExchange (exchangeData : gmap string JSValue)
  : Promise JSValue :=
  post "/swap/create" (Some exchangeData).

Definition getExchangeStatus (swapId : string) : Promise JSValue :=
  get ("/swap/status/" +:+ swapId) None.

Definition getSwapHistory : Promise JSValue :=
  get "/swap/history" None.

Definition getSwapDetails (swapId : string) : Promise JSValue :=
  get ("/swap/" +:+ swapId) None.

(** ** Callers *)

Definition call (e : Endpoint) : Promise JSValue :=
  match e with
  | GetCurrencies => getCurrencies
  | GetExchangeRate f t a => getExchangeRate f t a
  | GetExchangeRange f t => getExchangeRange f t
  | CreateExchange d => createExchange d
  | GetExchangeStatus i => getExchangeStatus i
  | GetSwapHistory => getSwapHistory
  | GetSwapDetails i => getSwapDetails i
  end.

Definition exec (s : Statement) (w : World) : World :=
  match s with
  | SetAuthToken token =>
      {| this := setAuthToken token (this w); wire := wire w |}
  | ClearAuthToken =>
      {| this := clearAuthToken (this w); wire := wire w |}
  | Await e => snd (call e w)
  end.

Fixpoint run (p : list Statement) (w : World) : World :=
  match p with
  | [] => w
  | s :: p' => run p' (exec s w)
  end.

(** The requests that running [p] from [w] hands to the adapter. *)
Definition issued_by (p : list Statement) (w : World)
  : list InternalAxiosRequestConfig :=
  drop (length (wire w)) (wire (run p w)).

(** The promise [m], started in [w], hands exactly [req] to the adapter. *)
Definition dispatches {A : Type} (m : Promise A) (w : World)
    (req : InternalAxiosRequestConfig) : Prop :=
  wire (snd (m w)) = wire w ++ [req].


(** The world right after construction: nothing dispatched yet. *)
Definition boot (sdk : SwapSDK) : World := {| this := sdk; wire := [] |}.

(** The typed view of [CreateExchangeRequest] and the object it denotes:
    an optional field that is left out is no property at all. *)
Record CreateExchangeRequest : Type := {
  fromCurrency : string;
  toCurrency : string;
  amount : number;
  recipientAddress : string;
  refundAddress : option string;
  refundExtraId : option string;
}.

Definition set_optional (k : string) (o : option string)
    (props : gmap string JSValue) : gmap string JSValue :=
  match o with
  | Some s => <[k := JStr s]> props
  | None => props
  end.

Definition CreateExchangeRequest_object (r : CreateExchangeRequest)
  : gmap string JSValue :=
  set_optional "refundExtraId" (refundExtraId r)
    (set_optional "refundAddress" (refundAddress r)
       {[ "fromCurrency" := JStr (fromCurrency r);
          "toCurrency" := JStr (toCurrency r);
          "amount" := JNum (amount r);
          "recipientAddress" := JStr (recipientAddress r) ]}).

(** ** The table of section 4.2, as the specification words it *)

(** What each endpoint method passes to the axios instance according to the
    table: HTTP method, path, query parameters, body. *)
Definition table_4_2 (e : Endpoint) : AxiosRequestConfig :=
  match e with
  | GetCurrencies =>
      {| req_method := GET; req_url := "/swap/currencies";
         req_params := None; req_data := None |}
  | GetExchangeRate f t a =>
      {| req_method := POST; req_url := "/swap/estimate";
         req_params := None;
         req_data := Some {[ "fromCurrency" := JStr f; "toCurrency" := JStr t;
                             "amount" := JNum a ]} |}
  | GetExchangeRange f t =>
      {| req_method := GET; req_url := "/swap/range";
         req_params := Some {[ "fromCurrency" := JStr f;
                               "toCurrency" := JStr t ]};
         req_data := None |}
  | CreateExchange d =>
      {| req_method := POST; req_url := "/swap/create";
         req_params := None; req_data := Some d |}
  | GetExchangeStatus i =>
      {| req_method := GET; req_url := "/swap/status/" +:+ i;
         req_params := None; req_data := None |}
  | GetSwapHistory =>
      {| req_method := GET; req_url := "/swap/history";
         req_params := None; req_data := None |}
  | GetSwapDetails i =>
      {| req_method := GET; req_url := "/swap/" +:+ i;
         req_params := None; req_data := None |}
  end.

(** The configuration that reaches the adapter when client [sdk] is asked
    for [c]. *)
Definition outgoing (sdk : SwapSDK) (c : AxiosRequestConfig)
  : InternalAxiosRequestConfig :=
  request_onFulfilled sdk (mergeConfig (defaults (client sdk)) c).


(** Request [req] has this HTTP method, path, query and body. *)
Definition carries (req : InternalAxiosRequestConfig) (m : Method)
    (url : string) (params body : option (gmap string JSValue)) : Prop :=
  cfg_method req = m /\ cfg_url req = url /\
  cfg_params req = params /\ cfg_data req = body.

(** ** Sample inputs *)

(** The normalization of header names written in ASCII letters, digits and
    punctuation without surrounding blanks: upper case to lower case. *)
Definition lower_char (c : ascii) : ascii :=
  let n := N_of_ascii c in
  if ((65 <=? n) && (n <=? 90))%N then ascii_of_N (n + 32) else c.

Fixpoint lower_ascii (s : string) : string :=
  match s with
  | EmptyString => EmptyString
  | String c s' => String (lower_char c) (lower_ascii s')
  end.

(** The conversion of the primitives that convert to a constant; enough to
    run the examples, none of which converts anything but a string. *)
Definition ToString_primitive (v : JSValue) : option string :=
  match v with
  | JUndefined => Some "undefined"
  | JNull => Some "null"
  | JBool true => Some "true"
  | JBool false => Some "false"
  | _ => None
  end.

(** An adapter that settles every request the same way. *)
Definition always (o : AdapterOutcome)
  : list InternalAxiosRequestConfig -> InternalAxiosRequestConfig -> AdapterOutcome :=
  fun _ _ => o.

(** The client of the test suite: [new SwapSDK({ baseURL: 'https://api.test.com' })]. *)
Definition test_sdk : SwapSDK :=
  new_SwapSDK
    (Some {| baseURL := Some "https://api.test.com"; timeout := None;
             headers := None |}).


Definition test_exchange : CreateExchangeRequest :=
  {| fromCurrency := "zec"; toCurrency := "sol"; amount := Number_of_Z 1;
     recipientAddress := "0x1234567890abcdef";
     refundAddress := None; refundExtraId := None |}.

Definition test_created : JSValue :=
  JObj {[ "success" := JBool true;
          "swap" := JObj {[ "id" := JStr "swap-123";
                            "status" := JStr "waiting" ]};
          "exchange" := JObj {[ "depositAddress" := JStr "0xabcdef1234567890";
                                "amount" := JNum (Number_of_Z 1);
                                "amountTo" := JNum (Number_of_Z 10) ]} ]}.

(** An error response with this body. *)
Definition bad_request (body : JSValue) : AdapterOutcome :=
  Fails {| error_message := "Request failed with status code 400";
           error_request := Some request_object;
           error_response := Some {| status := 400; data := body |} |}.

Definition timed_out : AdapterOutcome :=
  Fails {| error_message := "timeout of 10000ms exceeded";
           error_request := Some request_object;
           error_response := None |}.

Definition not_sent : AdapterOutcome :=
  Fails {| error_message := "Invalid URL";
           error_request := None;
           error_response := None |}.

(** ** Observations on caller programs *)

(** The endpoint calls a program awaits, in order. *)
Fixpoint calls_of (p : list Statement) : list Endpoint :=
  match p with
  | [] => []
  | Await e :: p' => e :: calls_of p'
  | SetAuthToken _ :: p' | ClearAuthToken :: p' => calls_of p'
  end.

(** A body field as the [APIError] type declares it: a string, or not set. *)
Definition string_or_undefined (v : JSValue) : bool :=
  match v with
  | JUndefined | JStr _ => true
  | JNull | JBool _ | JNum _ | JArr _ | JObj _ => false
  end.

(** * Properties *)

(** Every endpoint method is one round trip through the axios instance. *)
Lemma call_unfold (e : Endpoint) (w : World) :
  call e w =
  let req := outgoing (this w) (table_4_2 e) in
  let w' := {| this := this w; wire := wire w ++ [req] |} in
  match adapter (wire w) req with
  | Responds response => (Resolved (data response), w')
  | Fails error => (Rejected (response_onRejected error), w')
  end.
Proof.
  destruct e; cbn -[outgoing];
    unfold getCurrencies, getExchangeRate, getExchangeRange, createExchange,
      getExchangeStatus, getSwapHistory, getSwapDetails, get, post,
      client_get, client_post, client_request, mbind, Promise_bind, mret,
      Promise_ret, outgoing, response_onFulfilled; cbn;
    match goal with |- context [adapter ?h ?r] => destruct (adapter h r) end;
    reflexivity.
Qed.

Lemma call_dispatches (e : Endpoint) (w : World) :
  dispatches (call e) w (outgoing (this w) (table_4_2 e)).
Proof.
  unfold dispatches. rewrite call_unfold. cbn.
  destruct (adapter _ _); reflexivity.
Qed.

Lemma dispatches_unique {A : Type} (m : Promise A) (w : World)
    (r1 r2 : InternalAxiosRequestConfig) :
  dispatches m w r1 -> dispatches m w r2 -> r1 = r2.
Proof.
  unfold dispatches. intros H1 H2. rewrite H1 in H2.
  apply app_inv_head in H2. congruence.
Qed.

Lemma call_dispatched (e : Endpoint) (w : World)
    (req : InternalAxiosRequestConfig) :
  dispatches (call e) w req -> req = outgoing (this w) (table_4_2 e).
Proof.
  intros H. eapply dispatches_unique; [exact H | apply call_dispatches].
Qed.

Lemma call_this (e : Endpoint) (w : World) :
  this (snd (call e w)) = this w.
Proof.
  rewrite call_unfold. cbn. destruct (adapter _ _); reflexivity.
Qed.

Lemma call_wire (e : Endpoint) (w : World) :
  wire (snd (call e w)) = wire w ++ [outgoing (this w) (table_4_2 e)].
Proof. apply call_dispatches. Qed.

Lemma outgoing_carries (sdk : SwapSDK) (c : AxiosRequestConfig) :
  carries (outgoing sdk c) (req_method c) (req_url c) (req_params c) (req_data c).
Proof.
  unfold outgoing, request_onFulfilled, carries.
  destruct (authToken sdk) as [token|]; [destruct (ToBoolean (JStr token))|];
    cbn; auto.
Qed.

(** ** Successful calls *)

(** C3. Every endpoint method dispatches a request and, when the backend
    answers that request with a successful response, resolves with exactly
    the body of that response: the value is handed over as it is, with
    nothing added, removed, renamed, defaulted or transformed. *)
Theorem endpoint_resolves_with_body (e : Endpoint) (w : World) :
  exists req,
    dispatches (call e) w req /\
    forall response,
      adapter (wire w) req = Responds response ->
      fst (call e w) = Resolved (data response).
Proof.
  exists (outgoing (this w) (table_4_2 e)).
  split; [apply call_dispatches|].
  intros response Hok. rewrite call_unfold. cbn. rewrite Hok. reflexivity.
Qed.

(** C4. The request each endpoint method dispatches has the HTTP method, the
    path and the parameter placement of the table in section 4.2, for all
    arguments and in every state of the client. *)
Theorem endpoint_requests_match_table (w : World) :
  (exists req, dispatches getCurrencies w req /\
     carries req GET "/swap/currencies" None None) /\
  (forall from to amount, exists req,
     dispatches (getExchangeRate from to amount) w req /\
     carries req POST "/swap/estimate" None
       (Some {[ "fromCurrency" := JStr from; "toCurrency" := JStr to;
                "amount" := JNum amount ]})) /\
  (forall from to, exists req,
     dispatches (getExchangeRange from to) w req /\
     carries req GET "/swap/range"
       (Some {[ "fromCurrency" := JStr from; "toCurrency" := JStr to ]})
       None) /\
  (forall request, exists req,
     dispatches (createExchange request) w req /\
     carries req POST "/swap/create" None (Some request)) /\
  (forall swapId, exists req,
     dispatches (getExchangeStatus swapId) w req /\
     carries req GET ("/swap/status/" +:+ swapId) None None) /\
  (exists req, dispatches getSwapHistory w req /\
     carries req GET "/swap/history" None None) /\
  (forall swapId, exists req,
     dispatches (getSwapDetails swapId) w req /\
     carries req GET ("/swap/" +:+ swapId) None None).
Proof.
  split; [|split; [intros from to amt|split; [intros from to|
    split; [intros request|split; [intros swapId|split; [|intros swapId]]]]]].
  - exists (outgoing (this w) (table_4_2 GetCurrencies)). split.
    + apply (call_dispatches GetCurrencies).
    + apply outgoing_carries.
  - exists (outgoing (this w) (table_4_2 (GetExchangeRate from to amt))).
    split.
    + apply (call_dispatches (GetExchangeRate from to amt)).
    + apply outgoing_carries.
  - exists (outgoing (this w) (table_4_2 (GetExchangeRange from to))). split.
    + apply (call_dispatches (GetExchangeRange from to)).
    + apply outgoing_carries.
  - exists (outgoing (this w) (table_4_2 (CreateExchange request))). split.
    + apply (call_dispatches (CreateExchange request)).
    + apply outgoing_carries.
  - exists (outgoing (this w) (table_4_2 (GetExchangeStatus swapId))). split.
    + apply (call_dispatches (GetExchangeStatus swapId)).
    + apply outgoing_carries.
  - exists (outgoing (this w) (table_4_2 GetSwapHistory)). split.
    + apply (call_dispatches GetSwapHistory).
    + apply outgoing_carries.
  - exists (outgoing (this w) (table_4_2 (GetSwapDetails swapId))). split.
    + apply (call_dispatches (GetSwapDetails swapId)).
    + apply outgoing_carries.
Qed.

(** C9. The swap id goes into the path as it is, neither encoded nor
    checked, so two operations can dispatch the same request: for every
    string [id], [getSwapDetails("status/" + id)] issues a GET to exactly the
    path that [getExchangeStatus(id)] issues its GET to; the two calls hand
    the same request to the adapter and settle alike. *)
Theorem swap_details_reaches_status_path (id : string) (w : World) :
  (exists req,
     dispatches (getSwapDetails ("status/" +:+ id)) w req /\
     dispatches (getExchangeStatus id) w req /\
     cfg_method req = GET /\
     cfg_url req = "/swap/status/" +:+ id) /\
  getSwapDetails ("status/" +:+ id) w = getExchangeStatus id w.
Proof.
  split; [|reflexivity].
  exists (outgoing (this w) (table_4_2 (GetExchangeStatus id))).
  split; [|split].
  - apply (call_dispatches (GetSwapDetails ("status/" +:+ id))).
  - apply (call_dispatches (GetExchangeStatus id)).
  - destruct (outgoing_carries (this w) (table_4_2 (GetExchangeStatus id)))
      as (Hm & Hu & _). split; [exact Hm | exact Hu].
Qed.

(** C10. An endpoint call leaves the client as it found it, whether the
    call resolves or rejects: [getAuthToken()] returns after the call what it
    returned before, and the base URL, the timeout and the default headers of
    the client are the same. *)
Theorem endpoint_call_preserves_client (e : Endpoint) (w : World) :
  let before := this w in
  let after := this (snd (call e w)) in
  getAuthToken after = getAuthToken before /\
  def_baseURL (defaults (client after)) = def_baseURL (defaults (client before)) /\
  def_timeout (defaults (client after)) = def_timeout (defaults (client before)) /\
  def_headers (defaults (client after)) = def_headers (defaults (client before)) /\
  after = before.
Proof.
  cbn zeta. rewrite call_this. auto.
Qed.

(** ** Failed calls *)

Lemma call_fails (e : Endpoint) (w : World)
    (req : InternalAxiosRequestConfig) (error : AxiosError) :
  dispatches (call e) w req ->
  adapter (wire w) req = Fails error ->
  fst (call e w) = Rejected (response_onRejected error).
Proof.
  intros Hreq Hfail. apply call_dispatched in Hreq. subst req.
  rewrite call_unfold. cbn. rewrite Hfail. reflexivity.
Qed.

Lemma call_fails_outgoing (e : Endpoint) (w : World) (error : AxiosError) :
  adapter (wire w) (outgoing (this w) (table_4_2 e)) = Fails error ->
  fst (call e w) = Rejected (response_onRejected error).
Proof.
  intros Hfail. rewrite call_unfold. cbn. rewrite Hfail. reflexivity.
Qed.

(** Constructing the error from a truthy value stores its conversion. *)
Lemma throw_new_truthy (v c : JSValue) :
  ToBoolean v = true ->
  throw_new_SwapAPIError v c =
  match ToString ToString_other v with
  | Some m => Thrown_SwapAPIError {| name := "SwapAPIError"; message := m; code := c |}
  | None => Thrown_TypeError
  end.
Proof.
  intros Hv. unfold throw_new_SwapAPIError, SwapAPIError_new.
  destruct v; try discriminate Hv;
    cbn; try reflexivity; destruct (ToString_other _); reflexivity.
Qed.

Lemma throw_new_string (s : string) (c : JSValue) :
  throw_new_SwapAPIError (JStr s) c =
  Thrown_SwapAPIError {| name := "SwapAPIError"; message := s; code := c |}.
Proof. reflexivity. Qed.

Lemma ToBoolean_string (s : string) : s <> "" -> ToBoolean (JStr s) = true.
Proof.
  intros Hs. cbn. destruct (String.eqb_spec s ""); [contradiction | reflexivity].
Qed.

(** C6. Every endpoint method dispatches a request and, when that request
    was sent but no response arrived, rejects with the normalized error whose
    message is the fixed literal "Network error: No response received from
    server" and whose code is absent. *)
Theorem no_response_rejects_with_network_error (e : Endpoint) (w : World) :
  exists req,
    dispatches (call e) w req /\
    forall (error : AxiosError) (sent : ClientRequest),
      adapter (wire w) req = Fails error ->
      error_response error = None ->
      error_request error = Some sent ->
      fst (call e w) =
      Rejected (Thrown_SwapAPIError
        {| name := "SwapAPIError";
           message := "Network error: No response received from server";
           code := JUndefined |}).
Proof.
  exists (outgoing (this w) (table_4_2 e)).
  split; [apply call_dispatches|].
  intros error sent Hfail Hresp Hsent. rewrite (call_fails_outgoing e w error Hfail).
  unfold response_onRejected. rewrite Hresp, Hsent. reflexivity.
Qed.

(** C7. Every endpoint method dispatches a request and, when that request
    could not be built or sent at all (the underlying error carries neither a
    response nor a request), rejects with the normalized error whose message
    is "Request error: " followed by the message of the underlying error and
    whose code is absent. *)
Theorem unsent_request_rejects_with_request_error (e : Endpoint) (w : World) :
  exists req,
    dispatches (call e) w req /\
    forall error : AxiosError,
      adapter (wire w) req = Fails error ->
      error_response error = None ->
      error_request error = None ->
      fst (call e w) =
      Rejected (Thrown_SwapAPIError
        {| name := "SwapAPIError";
           message := "Request error: " +:+ error_message error;
           code := JUndefined |}).
Proof.
  exists (outgoing (this w) (table_4_2 e)).
  split; [apply call_dispatches|].
  intros error Hfail Hresp Hsent. rewrite (call_fails_outgoing e w error Hfail).
  unfold response_onRejected. rewrite Hresp, Hsent. reflexivity.
Qed.

(** C1 (amended). Every endpoint method dispatches a request and, when the
    server answered that request with an error status, rejects.  The value
    chosen for the message is the body's [message] field when that field is
    truthy, else the body's [error] field when that one is truthy, else the
    literal "Unknown error occurred".  When the string conversion of the
    chosen value succeeds, the method rejects with the normalized error
    whose message is that conversion and whose code is the body's [code]
    field if present, else absent; when the conversion throws, which only a
    chosen value that is no string can cause, the method rejects with the
    [TypeError] of the conversion instead.  So a non-empty string under
    [message] is the message of the normalized error; when [message] is
    absent, empty or otherwise falsy a non-empty string under [error] is;
    when both are falsy the literal is. *)
Theorem server_error_rejects_with_first_truthy_message (e : Endpoint)
    (w : World) :
  exists req,
    dispatches (call e) w req /\
    forall (error : AxiosError) (response : AxiosResponse),
      adapter (wire w) req = Fails error ->
      error_response error = Some response ->
      let body := data response in
      let field_message := optional_member body "message" in
      let field_error := optional_member body "error" in
      let field_code := optional_member body "code" in
      let chosen :=
        if ToBoolean field_message then field_message
        else if ToBoolean field_error then field_error
        else JStr "Unknown error occurred" in
      let normalized (m : string) :=
        Thrown_SwapAPIError
          {| name := "SwapAPIError"; message := m; code := field_code |} in
      fst (call e w) =
        Rejected (match ToString ToString_other chosen with
                  | Some m => normalized m
                  | None => Thrown_TypeError
                  end) /\
      (forall m, chosen = JStr m -> ToString ToString_other chosen = Some m) /\
      (forall m, field_message = JStr m -> m <> "" ->
         fst (call e w) = Rejected (normalized m)) /\
      (forall m, ToBoolean field_message = false ->
         field_error = JStr m -> m <> "" ->
         fst (call e w) = Rejected (normalized m)) /\
      (ToBoolean field_message = false -> ToBoolean field_error = false ->
         fst (call e w) = Rejected (normalized "Unknown error occurred")) /\
      (forall props, body = JObj props ->
         field_code = match props !! "code" with
                      | Some c => c
                      | None => JUndefined
                      end).
Proof.
  exists (outgoing (this w) (table_4_2 e)).
  split; [apply call_dispatches|].
  intros error response Hfail Hresp body field_message field_error field_code
    chosen normalized.
  assert (Hcall : fst (call e w) =
                  Rejected (throw_new_SwapAPIError chosen field_code)).
  { rewrite (call_fails_outgoing e w error Hfail).
    unfold response_onRejected. rewrite Hresp. cbn zeta.
    unfold logical_or, chosen, field_message, field_error, field_code, body.
    destruct (ToBoolean (optional_member (data response) "message")) eqn:Hm;
      rewrite ?Hm; [reflexivity|].
    destruct (ToBoolean (optional_member (data response) "error")) eqn:He;
      rewrite ?He; reflexivity. }
  assert (Htruthy : ToBoolean chosen = true).
  { unfold chosen. destruct (ToBoolean field_message) eqn:Hm; [exact Hm|].
    destruct (ToBoolean field_error) eqn:He; [exact He | reflexivity]. }
  split; [|split; [|split; [|split; [|split]]]].
  - rewrite Hcall, (throw_new_truthy _ _ Htruthy). reflexivity.
  - intros m ->. reflexivity.
  - intros m Hm Hne. rewrite Hcall. unfold chosen.
    rewrite Hm, (ToBoolean_string m Hne). apply f_equal, throw_new_string.
  - intros m Hm He Hne. rewrite Hcall. unfold chosen.
    rewrite Hm, He, (ToBoolean_string m Hne). apply f_equal, throw_new_string.
  - intros Hm He. rewrite Hcall. unfold chosen. rewrite Hm, He.
    apply f_equal, throw_new_string.
  - intros props Hbody. unfold field_code. rewrite Hbody. cbn.
    destruct (props !! "code"); reflexivity.
Qed.

(** ** Construction *)

Lemma obj_set_entries (k v : string) (o : StringRecord) (e : string * string) :
  e ∈ obj_set k v o -> e ∈ o \/ e = (k, v).
Proof.
  induction o as [|[k' v'] o IH]; cbn.
  - intros H. apply list_elem_of_singleton in H. auto.
  - destruct (String.eqb_spec k' k) as [->|Hne]; intros H;
      apply elem_of_cons in H as [->|H].
    + auto.
    + left. apply elem_of_cons. auto.
    + left. apply elem_of_cons. auto.
    + destruct (IH H) as [H'|H']; [|auto]. left. apply elem_of_cons. auto.
Qed.

Lemma obj_set_keeps_keys (k v k0 v0 : string) (o : StringRecord) :
  (k0, v0) ∈ o -> exists v', (k0, v') ∈ obj_set k v o.
Proof.
  induction o as [|[k' v'] o IH]; cbn; intros H.
  - apply elem_of_nil in H. contradiction.
  - apply elem_of_cons in H as [Heq|H].
    + injection Heq as <- <-.
      destruct (String.eqb k0 k); eexists; apply elem_of_cons; left;
        reflexivity.
    + destruct (String.eqb k' k).
      * exists v0. apply elem_of_cons. auto.
      * destruct (IH H) as [x Hx]. exists x. apply elem_of_cons. auto.
Qed.

Lemma obj_set_has_key (k v : string) (o : StringRecord) :
  (k, v) ∈ obj_set k v o.
Proof.
  induction o as [|[k' v'] o IH]; cbn.
  - apply elem_of_cons. auto.
  - destruct (String.eqb_spec k' k) as [->|Hne]; apply elem_of_cons; auto.
Qed.

(** The shape of [{ c: x, ...acc, ...over }]: the first property stays
    first; its value is [x] unless [over] sets it; every other property
    comes from [acc] or [over]; no property name is lost. *)
Lemma spread_head (c x : string) (acc over : StringRecord) :
  exists x' tl,
    spread ((c, x) :: acc) over = (c, x') :: tl /\
    (forall e, e ∈ tl -> e ∈ acc \/ e ∈ over) /\
    ((x' = x /\ forall v, (c, v) ∉ over) \/ (c, x') ∈ over) /\
    (forall k v, (k, v) ∈ acc -> exists v', (k, v') ∈ tl) /\
    (forall k v, (k, v) ∈ over -> k = c \/ exists v', (k, v') ∈ tl).
Proof.
  revert x acc. induction over as [|[k v] over IH]; intros x acc.
  - exists x, acc. cbn. split; [reflexivity|]. split; [auto|].
    split; [left; split; [reflexivity|]; intros v H;
            apply elem_of_nil in H; contradiction|].
    split; [eauto|]. intros k v H. apply elem_of_nil in H. contradiction.
  - unfold spread. cbn [fold_left fst snd obj_set].
    destruct (String.eqb_spec c k) as [<-|Hne].
    + destruct (IH v acc) as (x' & tl & Heq & Hent & Hval & Hacc & Hover).
      exists x', tl. split; [exact Heq|].
      split; [intros e He; destruct (Hent e He); [auto|];
              right; apply elem_of_cons; auto|].
      split; [right; destruct Hval as [[-> _]|H]; apply elem_of_cons; auto|].
      split; [exact Hacc|].
      intros k0 v0 H. apply elem_of_cons in H as [Hhead|H];
        [injection Hhead as -> _; auto|].
      apply (Hover _ _ H).
    + destruct (IH x (obj_set k v acc))
        as (x' & tl & Heq & Hent & Hval & Hacc & Hover).
      exists x', tl. split; [exact Heq|].
      split; [intros e He; destruct (Hent e He) as [H|H];
              [destruct (obj_set_entries _ _ _ _ H) as [H'| ->]; [auto|];
               right; apply elem_of_cons; auto
              |right; apply elem_of_cons; auto]|].
      split; [destruct Hval as [[-> Hno]|H];
              [left; split; [reflexivity|]; intros v0 H0;
               apply elem_of_cons in H0 as [Hhead|H0];
               [injection Hhead as Hc _; congruence | exact (Hno _ H0)]
              |right; apply elem_of_cons; auto]|].
      split; [intros k0 v0 H; destruct (obj_set_keeps_keys k v _ _ _ H) as [y Hy];
              exact (Hacc _ _ Hy)|].
      intros k0 v0 H. apply elem_of_cons in H as [Hhead|H].
      * injection Hhead as -> ->. right. apply (Hacc k v).
        apply obj_set_has_key.
      * apply (Hover _ _ H).
Qed.

(** Writing an object whose properties, where they are header [n], all
    hold [v0]: header [n] ends up with [v0], or is left as it was because no
    property is header [n]. *)
Lemma set_headers_agree (n v0 : string) (o : StringRecord)
    (h : gmap string string) :
  (forall k v, (k, v) ∈ o -> normalizeHeader k = n -> v = v0) ->
  set_headers normalizeHeader h o !! n = Some v0 \/
  (set_headers normalizeHeader h o !! n = h !! n /\
   forall k v, (k, v) ∈ o -> normalizeHeader k <> n).
Proof.
  revert h. induction o as [|[k v] o IH]; intros h Hagree.
  - right. split; [reflexivity|]. intros k v H.
    apply elem_of_nil in H. contradiction.
  - cbn [set_headers fold_left fst snd].
    destruct (IH (<[normalizeHeader k := v]> h)) as [Hsome|[Hsame Hnone]].
    { intros k' v' H. apply Hagree. apply elem_of_cons. auto. }
    + left. exact Hsome.
    + unfold set_headers in Hsame. rewrite Hsame.
      destruct (decide (normalizeHeader k = n)) as [Hk|Hk].
      * left. rewrite <- Hk, lookup_insert_eq. f_equal.
        apply (Hagree k v); [apply elem_of_cons; auto | exact Hk].
      * right. split; [apply lookup_insert_ne; exact Hk|].
        intros k' v' H. apply elem_of_cons in H as [[= -> ->]|H];
          [exact Hk | exact (Hnone _ _ H)].
Qed.

(** The default headers the constructor leaves: a header the caller does
    not name is [Content-Type: application/json] or nothing; a header the
    caller names, with one value, has that value. *)
Lemma constructor_headers (options : option SwapSDKOptions) (n : string) :
  let caller := default [] (headers (default no_options options)) in
  let d := defaults (client (new_SwapSDK options)) in
  ((forall k v, (k, v) ∈ caller -> normalizeHeader k <> n) ->
   def_headers d !! n =
   if decide (normalizeHeader "Content-Type" = n)
   then Some "application/json" else None) /\
  (forall k0 v0, (k0, v0) ∈ caller -> normalizeHeader k0 = n ->
     (forall k v, (k, v) ∈ caller -> normalizeHeader k = n -> v = v0) ->
     def_headers d !! n = Some v0).
Proof.
  intros caller d. subst d. unfold new_SwapSDK. cbn. fold caller.
  destruct (spread_head "Content-Type" "application/json" [] caller)
    as (x' & tl & -> & Hent & Hval & _ & Hover).
  assert (Htl : forall e, e ∈ tl -> e ∈ caller).
  { intros e He. destruct (Hent e He) as [H|H]; [|exact H].
    apply elem_of_nil in H. contradiction. }
  cbn [set_headers fold_left fst snd]. split.
  - intros Hnone.
    destruct (set_headers_agree n "" tl
                (<[normalizeHeader "Content-Type" := x']> ∅))
      as [Hsome|[Hsame _]].
    { intros k v H Hk. exfalso. exact (Hnone k v (Htl _ H) Hk). }
    + exfalso.
      assert (Hno : forall h, set_headers normalizeHeader h tl !! n = h !! n).
      { clear -Hnone Htl. induction tl as [|[k v] tl IH]; intros h;
          [reflexivity|]. cbn [set_headers fold_left fst snd].
        unfold set_headers in IH. rewrite IH.
        - apply lookup_insert_ne. apply (Hnone k v). apply Htl.
          apply elem_of_cons. auto.
        - intros e He. apply Htl. apply elem_of_cons. auto. }
      rewrite Hno in Hsome.
      destruct (decide (normalizeHeader "Content-Type" = n)) as [Hc|Hc].
      * destruct Hval as [[-> _]|H]; [|exact (Hnone _ _ H Hc)].
        rewrite <- Hc, lookup_insert_eq in Hsome. discriminate Hsome.
      * rewrite lookup_insert_ne, lookup_empty in Hsome by exact Hc.
        discriminate Hsome.
    + unfold set_headers in Hsame. rewrite Hsame.
      destruct (decide (normalizeHeader "Content-Type" = n)) as [Hc|Hc].
      * destruct Hval as [[-> _]|H]; [|exfalso; exact (Hnone _ _ H Hc)].
        rewrite <- Hc. apply lookup_insert_eq.
      * rewrite lookup_insert_ne by exact Hc. apply lookup_empty.
  - intros k0 v0 Hin Hk0 Hagree.
    destruct (set_headers_agree n v0 tl
                (<[normalizeHeader "Content-Type" := x']> ∅))
      as [Hsome|[Hsame Hnone]].
    { intros k v H Hk. exact (Hagree k v (Htl _ H) Hk). }
    + exact Hsome.
    + unfold set_headers in Hsame. rewrite Hsame.
      destruct (Hover k0 v0 Hin) as [->|[v' Hv']];
        [|exfalso; exact (Hnone _ _ Hv' Hk0)].
      rewrite Hk0, lookup_insert_eq. f_equal.
      destruct Hval as [[_ Hno]|H]; [exfalso; exact (Hno _ Hin)|].
      exact (Hagree _ _ H Hk0).
Qed.

(** C5 (amended). Header names count as axios compares them, whatever their
    letter case.  For every construction configuration, the default headers
    of the constructed client hold [application/json] under [Content-Type]
    when the caller's headers name no [Content-Type], and they hold every
    header the caller names with one value, [Content-Type] included: the
    caller's headers are merged over the fixed entry, not under it.  When
    left unspecified the base URL defaults to "https://zos.computer/" and
    the timeout to 10000 milliseconds. *)
Theorem constructor_defaults (options : option SwapSDKOptions) :
  let given := default no_options options in
  let given_headers := default [] (headers given) in
  let d := defaults (client (new_SwapSDK options)) in
  ((forall k v, (k, v) ∈ given_headers ->
      normalizeHeader k <> normalizeHeader "Content-Type") ->
   def_headers d !! normalizeHeader "Content-Type" = Some "application/json") /\
  (forall k v, (k, v) ∈ given_headers ->
     (forall k' v', (k', v') ∈ given_headers ->
        normalizeHeader k' = normalizeHeader k -> v' = v) ->
     def_headers d !! normalizeHeader k = Some v) /\
  (baseURL given = None -> def_baseURL d = "https://zos.computer/") /\
  (timeout given = None -> def_timeout d = Number_of_Z 10000).
Proof.
  intros given given_headers d.
  split; [|split; [|split]].
  - intros Hnone.
    destruct (constructor_headers options (normalizeHeader "Content-Type"))
      as (H & _).
    fold given_headers d in H. rewrite (H Hnone).
    destruct (decide _); [reflexivity | contradiction].
  - intros k v Hin Hagree.
    destruct (constructor_headers options (normalizeHeader k)) as (_ & H).
    apply (H k v Hin eq_refl Hagree).
  - intros H. subst d. unfold new_SwapSDK. cbn. fold given. rewrite H.
    reflexivity.
  - intros H. subst d. unfold new_SwapSDK. cbn. fold given. rewrite H.
    reflexivity.
Qed.

(** ** The auth header *)



Lemma run_wire_extends (p : list Statement) (w : World) :
  exists l, wire (run p w) = wire w ++ l.
Proof.
  revert w. induction p as [|s p IH]; intros w; cbn.
  - exists []. symmetry. apply app_nil_r.
  - destruct (IH (exec s w)) as [l Hl]. rewrite Hl.
    destruct s; cbn; [exists l; reflexivity | exists l; reflexivity |].
    rewrite call_wire, <- app_assoc. eexists. reflexivity.
Qed.

Lemma issued_by_token_statement (s : Statement) (p : list Statement)
    (w : World) :
  wire (exec s w) = wire w ->
  issued_by (s :: p) w = issued_by p (exec s w).
Proof.
  intros Hs. unfold issued_by. cbn. rewrite Hs. reflexivity.
Qed.

Lemma issued_by_await (e : Endpoint) (p : list Statement) (w : World) :
  issued_by (Await e :: p) w =
  outgoing (this w) (table_4_2 e) :: issued_by p (exec (Await e) w).
Proof.
  unfold issued_by. cbn.
  destruct (run_wire_extends p (snd (call e w))) as [l Hl]. rewrite Hl.
  rewrite drop_app_length. rewrite call_wire, <- app_assoc.
  rewrite drop_app_length. reflexivity.
Qed.

(** Every awaited call hands one request to the adapter. *)
Lemma awaits_issue_one_request_each (calls : list Endpoint) (w : World) :
  length (issued_by (map Await calls) w) = length calls.
Proof.
  revert w. induction calls as [|e calls IH]; intros w.
  - unfold issued_by. cbn. rewrite drop_all. reflexivity.
  - cbn [map]. rewrite issued_by_await. cbn. rewrite IH. reflexivity.
Qed.





(** * Further properties *)

(** ** Programs *)

Lemma call_world (e : Endpoint) (w : World) :
  snd (call e w) =
  {| this := this w; wire := wire w ++ [outgoing (this w) (table_4_2 e)] |}.
Proof.
  rewrite call_unfold. cbn. destruct (adapter _ _); reflexivity.
Qed.

Lemma run_app (p q : list Statement) (w : World) :
  run (p ++ q) w = run q (run p w).
Proof.
  revert w. induction p as [|s p IH]; intros w; [reflexivity|]. cbn. apply IH.
Qed.

Lemma exec_client (s : Statement) (w : World) :
  client (this (exec s w)) = client (this w).
Proof.
  destruct s as [t| |e]; [reflexivity | reflexivity |].
  cbn. rewrite call_this. reflexivity.
Qed.

Lemma run_awaits_this (calls : list Endpoint) (w : World) :
  this (run (map Await calls) w) = this w.
Proof.
  revert w. induction calls as [|e calls IH]; intros w; [reflexivity|].
  cbn. rewrite IH. apply call_this.
Qed.

Lemma issued_by_nil (w : World) : issued_by [] w = [].
Proof. unfold issued_by. cbn. apply drop_all. Qed.

(** The requests of a run of calls, one by one. *)
Lemma issued_by_awaits (calls : list Endpoint) (w : World) :
  issued_by (map Await calls) w =
  map (fun e => outgoing (this w) (table_4_2 e)) calls.
Proof.
  revert w. induction calls as [|e calls IH]; intros w.
  - apply issued_by_nil.
  - cbn [map]. rewrite issued_by_await, IH. cbn [exec].
    rewrite call_this. reflexivity.
Qed.

(** Every issued request is what some state of the same client sends. *)
Lemma issued_by_outgoing (p : list Statement) (w : World)
    (req : InternalAxiosRequestConfig) :
  req ∈ issued_by p w ->
  exists sdk c, client sdk = client (this w) /\ req = outgoing sdk c.
Proof.
  revert w. induction p as [|s p IH]; intros w Hreq.
  - rewrite issued_by_nil in Hreq. apply elem_of_nil in Hreq. contradiction.
  - assert (Htail : req ∈ issued_by p (exec s w) ->
                    exists sdk c, client sdk = client (this w) /\
                                  req = outgoing sdk c).
    { intros H. destruct (IH _ H) as (sdk & c & Hsdk & Hc).
      exists sdk, c. rewrite Hsdk, exec_client. auto. }
    destruct s as [t| |e].
    + rewrite issued_by_token_statement in Hreq by reflexivity. auto.
    + rewrite issued_by_token_statement in Hreq by reflexivity. auto.
    + rewrite issued_by_await in Hreq.
      apply elem_of_cons in Hreq as [->|Hreq]; [|auto].
      exists (this w), (table_4_2 e). auto.
Qed.

(** X1. [getAuthToken()] returns the token of the most recent
    [setAuthToken] call, whatever ran before that call and whatever endpoint
    calls were awaited since, resolved or rejected; it returns [undefined]
    when the most recent token call was [clearAuthToken], and on a client on
    which only endpoint calls have run since construction. *)
Theorem getAuthToken_follows_last_token_call (p : list Statement)
    (calls : list Endpoint) (w : World) (t : AuthToken) :
  getAuthToken (this (run (p ++ SetAuthToken t :: map Await calls) w)) = Some t /\
  getAuthToken (this (run (p ++ ClearAuthToken :: map Await calls) w)) = None /\
  (forall options,
     getAuthToken
       (this (run (map Await calls) (boot (new_SwapSDK options)))) = None).
Proof.
  split; [|split].
  - rewrite run_app. cbn [run]. rewrite run_awaits_this. reflexivity.
  - rewrite run_app. cbn [run]. rewrite run_awaits_this. reflexivity.
  - intros options. rewrite run_awaits_this. reflexivity.
Qed.

(** X2. No program of token calls and endpoint calls changes the axios
    instance of the client: base URL, timeout and default headers stay what
    construction made them. *)
Theorem client_is_fixed_at_construction (p : list Statement) (w : World) :
  client (this (run p w)) = client (this w).
Proof.
  revert w. induction p as [|s p IH]; intros w; [reflexivity|].
  cbn. rewrite IH. apply exec_client.
Qed.

(** X3. A program hands exactly one request to the adapter per awaited
    endpoint call, whether the call resolves or rejects: nothing is retried,
    and the token accessors send nothing. *)
Theorem one_request_per_call (p : list Statement) (w : World) :
  length (issued_by p w) = length (calls_of p).
Proof.
  revert w. induction p as [|s p IH]; intros w.
  - rewrite issued_by_nil. reflexivity.
  - destruct s as [t| |e].
    + rewrite issued_by_token_statement by reflexivity. apply IH.
    + rewrite issued_by_token_statement by reflexivity. apply IH.
    + rewrite issued_by_await. cbn. rewrite IH. reflexivity.
Qed.

(** X14. Endpoint calls do not depend on the calls made before them: in a
    run of awaited calls the requests come out in the order of the calls,
    and each is the request its call would have dispatched as the first
    one. *)
Theorem calls_are_independent_and_ordered (calls : list Endpoint) (w : World) :
  Forall2 (fun e req => dispatches (call e) w req)
    calls (issued_by (map Await calls) w).
Proof.
  rewrite issued_by_awaits.
  induction calls as [|e calls IH]; constructor; [|exact IH].
  apply call_dispatches.
Qed.

(** X15. On the wire, setting the empty token is the same as clearing the
    token: the endpoint calls that follow issue the same requests. *)
Theorem empty_token_sends_what_no_token_sends (calls : list Endpoint)
    (w : World) :
  issued_by (SetAuthToken "" :: map Await calls) w =
  issued_by (ClearAuthToken :: map Await calls) w.
Proof.
  rewrite !issued_by_token_statement by reflexivity.
  rewrite !issued_by_awaits. reflexivity.
Qed.

Lemma endpoint_resolves_with_body_aux (e : Endpoint) (w : World)
    (req : InternalAxiosRequestConfig) (response : AxiosResponse) :
  dispatches (call e) w req ->
  adapter (wire w) req = Responds response ->
  fst (call e w) = Resolved (data response).
Proof.
  intros Hreq Hok. apply call_dispatched in Hreq. subst req.
  rewrite call_unfold. cbn. rewrite Hok. reflexivity.
Qed.

(** ** What a request carries *)

Lemma outgoing_frame (sdk : SwapSDK) (c : AxiosRequestConfig) :
  cfg_baseURL (outgoing sdk c) = def_baseURL (defaults (client sdk)) /\
  cfg_timeout (outgoing sdk c) = def_timeout (defaults (client sdk)) /\
  (forall n, n <> normalizeHeader "x-auth-token" ->
     cfg_headers (outgoing sdk c) !! n = def_headers (defaults (client sdk)) !! n).
Proof.
  unfold outgoing, request_onFulfilled.
  destruct (authToken sdk) as [token|]; [destruct (ToBoolean (JStr token))|];
    cbn; repeat split; auto.
  intros n Hn. apply lookup_insert_ne. congruence.
Qed.

(** X5. The request interceptor writes no header but [x-auth-token]: every
    request a program issues, in whatever token state, carries the base URL
    and the timeout of the client and, for every header that is not
    [x-auth-token] (names compared as axios compares them, whatever their
    letter case), what the default headers of the client hold for it. *)
Theorem requests_carry_client_configuration (p : list Statement) (w : World)
    (req : InternalAxiosRequestConfig) :
  req ∈ issued_by p w ->
  cfg_baseURL req = def_baseURL (defaults (client (this w))) /\
  cfg_timeout req = def_timeout (defaults (client (this w))) /\
  (forall k, normalizeHeader k <> normalizeHeader "x-auth-token" ->
     cfg_headers req !! normalizeHeader k =
     def_headers (defaults (client (this w))) !! normalizeHeader k).
Proof.
  intros Hreq.
  destruct (issued_by_outgoing p w req Hreq) as (sdk & c & Hsdk & ->).
  rewrite <- Hsdk. destruct (outgoing_frame sdk c) as (Hb & Ht & Hh).
  split; [exact Hb|]. split; [exact Ht|]. intros k Hk. apply Hh. exact Hk.
Qed.

(** X6. Header names count as axios compares them, whatever their letter
    case, [Content-Type] and [x-auth-token] being different headers.  Every
    request issued on a client since its construction carries the base URL
    and the timeout given to the constructor, or "https://zos.computer/" and
    10000 where none was given; under [Content-Type] it carries
    [application/json] when the caller's headers name no [Content-Type], and
    the caller's value when they name it with one value. *)
Theorem requests_carry_constructor_options (options : option SwapSDKOptions)
    (p : list Statement) (req : InternalAxiosRequestConfig) :
  normalizeHeader "Content-Type" <> normalizeHeader "x-auth-token" ->
  req ∈ issued_by p (boot (new_SwapSDK options)) ->
  let given := default no_options options in
  let given_headers := default [] (headers given) in
  cfg_baseURL req = default "https://zos.computer/" (baseURL given) /\
  cfg_timeout req = default (Number_of_Z 10000) (timeout given) /\
  ((forall k v, (k, v) ∈ given_headers ->
      normalizeHeader k <> normalizeHeader "Content-Type") ->
   cfg_headers req !! normalizeHeader "Content-Type" =
   Some "application/json") /\
  (forall k v, (k, v) ∈ given_headers ->
     normalizeHeader k = normalizeHeader "Content-Type" ->
     (forall k' v', (k', v') ∈ given_headers ->
        normalizeHeader k' = normalizeHeader "Content-Type" -> v' = v) ->
     cfg_headers req !! normalizeHeader "Content-Type" = Some v).
Proof.
  intros Hnames Hreq given given_headers.
  destruct (issued_by_outgoing p _ req Hreq) as (sdk & c & Hsdk & ->).
  destruct (outgoing_frame sdk c) as (Hb & Ht & Hh).
  rewrite Hb, Ht, (Hh (normalizeHeader "Content-Type")) by exact Hnames.
  rewrite Hsdk.
  destruct (constructor_headers options (normalizeHeader "Content-Type"))
    as (Hnone & Hsome).
  split; [reflexivity|]. split; [reflexivity|]. split.
  - intros H. cbn [boot this]. rewrite (Hnone H).
    destruct (decide _); [reflexivity | contradiction].
  - intros k v Hin Hk Hagree. apply (Hsome k v Hin Hk Hagree).
Qed.


(** ** How calls settle *)

(** X12. An endpoint method settles as the adapter settles its request: it
    resolves with a value exactly when the adapter responds with that value
    as the body, and it rejects exactly when the adapter fails, with what the
    response interceptor makes of the failure.  No failure is swallowed and
    no response is turned into a rejection. *)
Theorem endpoint_settles_as_adapter (e : Endpoint) (w : World) :
  (forall v, fst (call e w) = Resolved v <->
     exists req response, dispatches (call e) w req /\
       adapter (wire w) req = Responds response /\ data response = v) /\
  (forall x, fst (call e w) = Rejected x <->
     exists req error, dispatches (call e) w req /\
       adapter (wire w) req = Fails error /\ response_onRejected error = x).
Proof.
  split; intros y; split.
  - intros H. exists (outgoing (this w) (table_4_2 e)).
    rewrite call_unfold in H. cbn in H.
    destruct (adapter _ _) as [response|error] eqn:Ha; [|discriminate H].
    exists response. split; [apply call_dispatches|]. split; [reflexivity|].
    cbn in H. congruence.
  - intros (req & response & Hreq & Ha & <-).
    apply (endpoint_resolves_with_body_aux e w req response Hreq Ha).
  - intros H. exists (outgoing (this w) (table_4_2 e)).
    rewrite call_unfold in H. cbn in H.
    destruct (adapter _ _) as [response|error] eqn:Ha; [discriminate H|].
    exists error. split; [apply call_dispatches|]. split; [reflexivity|].
    cbn in H. congruence.
  - intros (req & error & Hreq & Ha & <-). apply (call_fails e w req error Hreq Ha).
Qed.

(** ** The normalized error *)

(** What the constructor call of the interceptor throws: either the
    conversion of the message failed, or the error has the fixed name, the
    converted message and exactly the given code. *)
Lemma throw_new_inv (m c : JSValue) (x : Exception) :
  throw_new_SwapAPIError m c = x ->
  (x = Thrown_TypeError /\ m <> JUndefined /\
   ToString ToString_other m = None) \/
  (exists msg, x = Thrown_SwapAPIError
                     {| name := "SwapAPIError"; message := msg; code := c |} /\
     (m = JUndefined /\ msg = "" \/
      m <> JUndefined /\ ToString ToString_other m = Some msg)).
Proof.
  intros <-. unfold throw_new_SwapAPIError, SwapAPIError_new.
  destruct m; cbn;
    try (right; eexists; split; [reflexivity|]; auto; fail);
    try (destruct (ToString_other _) as [msg|] eqn:Hconv;
         [right; exists msg; split; [reflexivity|]; right; split;
            [discriminate | reflexivity]
         |left; split; [reflexivity|]; split; [discriminate | reflexivity]]).
Qed.

(** The value the interceptor picks is truthy: a field that passed the
    test, or the literal. *)
Lemma chosen_message_cases (body : JSValue) :
  let chosen :=
    logical_or
      (logical_or (optional_member body "message") (optional_member body "error"))
      (JStr "Unknown error occurred") in
  (chosen = optional_member body "message" \/
   chosen = optional_member body "error" \/
   chosen = JStr "Unknown error occurred") /\
  ToBoolean chosen = true.
Proof.
  cbn zeta. unfold logical_or.
  destruct (ToBoolean (optional_member body "message")) eqn:Hm.
  - rewrite Hm. auto.
  - destruct (ToBoolean (optional_member body "error")) eqn:He; auto.
Qed.

(** X8. Every endpoint method dispatches a request and, when the server
    answers that request with an error status and a body that is not an
    object (nothing, [null], a string such as an HTML error page, a number,
    a boolean, an array), rejects with the normalized error whose message is
    "Unknown error occurred" and whose code is absent. *)
Theorem non_object_body_is_unknown_error (e : Endpoint) (w : World) :
  exists req,
    dispatches (call e) w req /\
    forall (error : AxiosError) (response : AxiosResponse),
      adapter (wire w) req = Fails error ->
      error_response error = Some response ->
      (forall props, data response <> JObj props) ->
      fst (call e w) =
      Rejected (Thrown_SwapAPIError
        {| name := "SwapAPIError"; message := "Unknown error occurred";
           code := JUndefined |}).
Proof.
  exists (outgoing (this w) (table_4_2 e)).
  split; [apply call_dispatches|].
  intros error response Hfail Hresp Hbody.
  rewrite (call_fails_outgoing e w error Hfail).
  unfold response_onRejected. rewrite Hresp. cbn zeta.
  destruct (data response) as [| | b | x | s | l | props];
    try reflexivity.
  exfalso. apply (Hbody props). reflexivity.
Qed.

(** X9. A code on the normalized error always comes from the backend: when
    an endpoint method rejects with a [SwapAPIError] whose code is not
    [undefined], the server had answered with an object body whose [code]
    property is that value. *)
Theorem code_comes_from_response_body (e : Endpoint) (w : World)
    (x : SwapAPIError) :
  fst (call e w) = Rejected (Thrown_SwapAPIError x) ->
  code x <> JUndefined ->
  exists req error response props,
    dispatches (call e) w req /\
    adapter (wire w) req = Fails error /\
    error_response error = Some response /\
    data response = JObj props /\
    props !! "code" = Some (code x).
Proof.
  intros Hrej Hcode. rewrite call_unfold in Hrej. cbn in Hrej.
  destruct (adapter _ _) as [response|error] eqn:Ha; [discriminate Hrej|].
  cbn in Hrej. injection Hrej as Hrej.
  exists (outgoing (this w) (table_4_2 e)), error.
  unfold response_onRejected in Hrej.
  destruct (error_response error) as [response|] eqn:Hresp.
  - cbn zeta in Hrej.
    destruct (throw_new_inv _ _ _ Hrej) as [(Hx & _)|(msg & Hx & _)];
      [discriminate Hx|].
    injection Hx as ->. cbn in Hcode.
    exists response.
    destruct (data response) as [| | b | n | s | l | props] eqn:Hdata;
      try (exfalso; apply Hcode; reflexivity).
    exists props. split; [apply call_dispatches|].
    split; [exact Ha|]. split; [reflexivity|]. split; [reflexivity|].
    cbn in Hcode |- *. destruct (props !! "code") as [c|]; [reflexivity|].
    exfalso. apply Hcode. reflexivity.
  - exfalso. apply Hcode.
    destruct (error_request error); cbn in Hrej; injection Hrej as <-;
      reflexivity.
Qed.

(** X10. Every endpoint method dispatches a request and, when that request
    fails, in whichever of the three ways, with the [message] and [error]
    fields of an error body being what the [APIError] type declares, strings
    or not set, rejects with a [SwapAPIError] named "SwapAPIError" whose
    message is not empty. *)
Theorem typed_failures_reject_with_SwapAPIError (e : Endpoint) (w : World) :
  exists req,
    dispatches (call e) w req /\
    forall error : AxiosError,
      adapter (wire w) req = Fails error ->
      (forall response, error_response error = Some response ->
         string_or_undefined (optional_member (data response) "message") = true /\
         string_or_undefined (optional_member (data response) "error") = true) ->
      exists x,
        fst (call e w) = Rejected (Thrown_SwapAPIError x) /\
        name x = "SwapAPIError" /\ message x <> "".
Proof.
  exists (outgoing (this w) (table_4_2 e)).
  split; [apply call_dispatches|].
  intros error Hfail Htyped.
  rewrite (call_fails_outgoing e w error Hfail).
  unfold response_onRejected.
  destruct (error_response error) as [response|] eqn:Hresp.
  - destruct (Htyped response eq_refl) as (Hm & He). cbn zeta.
    destruct (chosen_message_cases (data response)) as (Hcases & Htruthy).
    cbn zeta in Hcases, Htruthy.
    set (chosen := logical_or _ _) in *.
    assert (Hstr : exists s, chosen = JStr s /\ s <> "").
    { assert (Hsu : string_or_undefined chosen = true)
        by (destruct Hcases as [-> | [-> | ->]]; auto).
      destruct chosen as [| | b | n | s | l | props];
        try discriminate Hsu; try discriminate Htruthy.
      exists s. split; [reflexivity|]. intros ->. discriminate Htruthy. }
    destruct Hstr as (s & -> & Hs).
    eexists. rewrite throw_new_string. split; [reflexivity|]. cbn. auto.
  - destruct (error_request error); rewrite throw_new_string;
      eexists; (split; [reflexivity|]); cbn; (split; [reflexivity|]);
      discriminate.
Qed.

(** X11. An endpoint method rejects with something other than a
    [SwapAPIError] only when the server answered and the body's [message]
    or [error] field is a truthy value that is no string and whose string
    conversion throws. *)
Theorem TypeError_needs_unconvertible_field (e : Endpoint) (w : World) :
  fst (call e w) = Rejected Thrown_TypeError ->
  exists req error response v,
    dispatches (call e) w req /\
    adapter (wire w) req = Fails error /\
    error_response error = Some response /\
    (v = optional_member (data response) "message" \/
     v = optional_member (data response) "error") /\
    ToBoolean v = true /\
    (forall s, v <> JStr s) /\
    ToString_other v = None.
Proof.
  intros Hrej. rewrite call_unfold in Hrej. cbn in Hrej.
  destruct (adapter _ _) as [response|error] eqn:Ha; [discriminate Hrej|].
  cbn in Hrej. injection Hrej as Hrej.
  exists (outgoing (this w) (table_4_2 e)), error.
  unfold response_onRejected in Hrej.
  destruct (error_response error) as [response|] eqn:Hresp.
  - exists response. cbn zeta in Hrej.
    destruct (chosen_message_cases (data response)) as (Hcases & Htruthy).
    cbn zeta in Hcases, Htruthy.
    set (chosen := logical_or _ _) in *.
    destruct (throw_new_inv _ _ _ Hrej) as [(_ & _ & Hconv)|(msg & Hx & _)];
      [|discriminate Hx].
    assert (Hns : forall s, chosen <> JStr s).
    { intros s Hs. rewrite Hs in Hconv. discriminate Hconv. }
    assert (Hother : ToString_other chosen = None).
    { destruct chosen; try exact Hconv. exfalso. eapply Hns. reflexivity. }
    exists chosen. split; [apply call_dispatches|].
    split; [exact Ha|]. split; [reflexivity|].
    split; [|auto].
    destruct Hcases as [H | [H | H]]; auto.
    exfalso. apply (Hns _ H).
  - exfalso. destruct (error_request error); discriminate Hrej.
Qed.

End Runtime.

(** * Concrete runs *)

(** Membership in a list that is written out. *)
Ltac in_list H :=
  cbn in H;
  repeat (apply elem_of_cons in H as [H|H];
          [injection H as -> ->|]);
  [..|apply elem_of_nil in H; contradiction].

(** The end-to-end scenario: the request object goes out as the body and the
    response body comes back as the result. *)
Lemma endpoint_resolves_with_body_witness :
  let e := CreateExchange (CreateExchangeRequest_object test_exchange) in
  let backend := always (Responds {| status := 200; data := test_created |}) in
  fst (call lower_ascii ToString_primitive backend e (boot (test_sdk lower_ascii)))
  = Resolved test_created.
Proof.
  intros e backend.
  destruct (endpoint_resolves_with_body lower_ascii ToString_primitive backend e
              (boot (test_sdk lower_ascii))) as (req & _ & Hresolves).
  apply (Hresolves {| status := 200; data := test_created |}). reflexivity.
Defined.

Lemma no_response_rejects_with_network_error_witness :
  fst (call lower_ascii ToString_primitive (always timed_out) GetSwapHistory
         (boot (test_sdk lower_ascii))) =
  Rejected (Thrown_SwapAPIError
    {| name := "SwapAPIError";
       message := "Network error: No response received from server";
       code := JUndefined |}).
Proof.
  destruct (no_response_rejects_with_network_error lower_ascii
              ToString_primitive (always timed_out) GetSwapHistory
              (boot (test_sdk lower_ascii))) as (req & _ & Hrejects).
  apply (Hrejects
           {| error_message := "timeout of 10000ms exceeded";
              error_request := Some request_object;
              error_response := None |} request_object);
    reflexivity.
Defined.

Lemma unsent_request_rejects_with_request_error_witness :
  fst (call lower_ascii ToString_primitive (always not_sent)
         (GetExchangeRange "zec" "sol") (boot (test_sdk lower_ascii))) =
  Rejected (Thrown_SwapAPIError
    {| name := "SwapAPIError";
       message := "Request error: Invalid URL";
       code := JUndefined |}).
Proof.
  destruct (unsent_request_rejects_with_request_error lower_ascii
              ToString_primitive (always not_sent)
              (GetExchangeRange "zec" "sol") (boot (test_sdk lower_ascii)))
    as (req & _ & Hrejects).
  apply (Hrejects
           {| error_message := "Invalid URL";
              error_request := None;
              error_response := None |});
    reflexivity.
Defined.

(** The test suite's error body: the message and the code come through. *)
Lemma server_error_rejects_with_first_truthy_message_witness :
  let body :=
    JObj {[ "error" := JStr "Bad Request";
            "message" := JStr "Invalid parameters";
            "code" := JStr "INVALID_PARAMS" ]} in
  fst (call lower_ascii ToString_primitive (always (bad_request body))
         GetCurrencies (boot (test_sdk lower_ascii))) =
  Rejected (Thrown_SwapAPIError
    {| name := "SwapAPIError";
       message := "Invalid parameters";
       code := JStr "INVALID_PARAMS" |}).
Proof.
  intros body.
  destruct (server_error_rejects_with_first_truthy_message lower_ascii
              ToString_primitive (always (bad_request body)) GetCurrencies
              (boot (test_sdk lower_ascii))) as (req & _ & Hrejects).
  destruct (Hrejects
              {| error_message := "Request failed with status code 400";
                 error_request := Some request_object;
                 error_response := Some {| status := 400; data := body |} |}
              {| status := 400; data := body |}
              eq_refl eq_refl) as (_ & _ & Hmessage & _).
  apply (Hmessage "Invalid parameters"); [reflexivity | discriminate].
Defined.

(** C1, as stated, fails on a body whose [message] field is present but
    empty, where the normalized error takes the [error] field instead, and
    on a body whose [message] field is an object that has no string
    conversion (its own [toString] property is no function), where the
    method rejects with a [TypeError] and no normalized error at all. *)
Lemma server_error_message_counterexample :
  let rejection (body : JSValue) :=
    fst (call lower_ascii ToString_primitive (always (bad_request body))
           GetCurrencies (boot (test_sdk lower_ascii))) in
  let empty := JObj {[ "message" := JStr ""; "error" := JStr "Bad Request" ]} in
  let odd := JObj {[ "message" := JObj {[ "toString" := JNull ]} ]} in
  optional_member empty "message" = JStr "" /\
  rejection empty =
    Rejected (Thrown_SwapAPIError
      {| name := "SwapAPIError"; message := "Bad Request"; code := JUndefined |}) /\
  rejection empty <>
    Rejected (Thrown_SwapAPIError
      {| name := "SwapAPIError"; message := ""; code := JUndefined |}) /\
  rejection odd = Rejected Thrown_TypeError /\
  (forall x, rejection odd <> Rejected (Thrown_SwapAPIError x)).
Proof.
  cbv zeta. split; [reflexivity|]. split; [reflexivity|].
  split; [vm_compute; discriminate|]. split; [reflexivity|].
  intros x. vm_compute. discriminate.
Qed.

(** A caller that spells the header in lower case still replaces the fixed
    entry; a client constructed without headers keeps it. *)
Lemma constructor_defaults_witness :
  let options :=
    {| baseURL := Some "https://api.test.com"; timeout := None;
       headers := Some [("content-type", "text/plain"); ("X-Client", "demo")] |} in
  let d := defaults (client (new_SwapSDK lower_ascii (Some options))) in
  def_headers (defaults (client (test_sdk lower_ascii)))
    !! lower_ascii "Content-Type" = Some "application/json" /\
  def_headers d !! lower_ascii "Content-Type" = Some "text/plain" /\
  def_headers d !! lower_ascii "x-client" = Some "demo" /\
  def_timeout d = Number_of_Z 10000.
Proof.
  intros options d.
  destruct (constructor_defaults lower_ascii
              (Some {| baseURL := Some "https://api.test.com"; timeout := None;
                       headers := None |})) as (Hfixed & _).
  destruct (constructor_defaults lower_ascii (Some options))
    as (_ & Hcaller & _ & Htimeout).
  split; [|split; [|split]].
  - apply Hfixed. intros k v H. apply elem_of_nil in H. contradiction.
  - apply (Hcaller "content-type" "text/plain").
    + apply elem_of_cons. left. reflexivity.
    + intros k' v' H Hk. unfold options in H. in_list H; [reflexivity | discriminate Hk].
  - apply (Hcaller "X-Client" "demo").
    + apply elem_of_cons. right. apply elem_of_cons. left. reflexivity.
    + intros k' v' H Hk. unfold options in H. in_list H; [discriminate Hk | reflexivity].
  - apply Htimeout. reflexivity.
Defined.

(** C5, as stated, fails when the caller supplies a [Content-Type] header,
    in whatever letter case: the caller's value replaces
    [application/json]. *)
Lemma constructor_content_type_counterexample :
  let defaults_for (o : StringRecord) :=
    def_headers (defaults (client (new_SwapSDK lower_ascii
      (Some {| baseURL := None; timeout := None; headers := Some o |})))) in
  defaults_for [("Content-Type", "text/plain")] !! lower_ascii "Content-Type"
    = Some "text/plain" /\
  defaults_for [("content-type", "text/plain")] !! lower_ascii "Content-Type"
    = Some "text/plain" /\
  defaults_for [("Content-Type", "text/plain")] !! lower_ascii "Content-Type"
    <> Some "application/json".
Proof.
  cbv zeta. split; [reflexivity|]. split; [reflexivity|].
  vm_compute. discriminate.
Qed.





(** * Further properties: concrete runs and the backend *)

(** X4. What the backend answers never steers the client: under any two
    adapters, and any two string conversions, a program leaves the same
    client object behind and hands the same requests, in the same order, to
    the adapter. *)
Theorem backend_answers_do_not_steer_the_client
    (normalizeHeader : string -> string)
    (conv1 conv2 : JSValue -> option string)
    (adapter1 adapter2 :
       list InternalAxiosRequestConfig -> InternalAxiosRequestConfig ->
       AdapterOutcome)
    (p : list Statement) (w : World) :
  run normalizeHeader conv1 adapter1 p w =
  run normalizeHeader conv2 adapter2 p w /\
  issued_by normalizeHeader conv1 adapter1 p w =
  issued_by normalizeHeader conv2 adapter2 p w.
Proof.
  assert (Hrun : forall v, run normalizeHeader conv1 adapter1 p v =
                           run normalizeHeader conv2 adapter2 p v).
  { induction p as [|s p IH]; intros v; [reflexivity|]. cbn.
    replace (exec normalizeHeader conv2 adapter2 s v)
      with (exec normalizeHeader conv1 adapter1 s v); [apply IH|].
    destruct s as [t| |e]; [reflexivity | reflexivity |].
    cbn. rewrite !call_world. reflexivity. }
  split; [apply Hrun|]. unfold issued_by. rewrite Hrun. reflexivity.
Qed.

(** A default header spelled [X-Client] reaches the request; a token
    replaces a default [X-Auth-Token] and nothing else. *)
Lemma requests_carry_client_configuration_witness :
  let backend := always timed_out in
  let options :=
    {| baseURL := Some "https://api.test.com"; timeout := None;
       headers := Some [("X-Auth-Token", "static-key"); ("X-Client", "demo")] |} in
  let sdk := new_SwapSDK lower_ascii (Some options) in
  let req := outgoing lower_ascii (setAuthToken "test-auth-token" sdk)
               (table_4_2 GetCurrencies) in
  cfg_baseURL req = "https://api.test.com" /\
  cfg_timeout req = Number_of_Z 10000 /\
  cfg_headers req !! lower_ascii "Content-Type" = Some "application/json" /\
  cfg_headers req !! lower_ascii "x-client" = Some "demo".
Proof.
  intros backend options sdk req.
  destruct (requests_carry_client_configuration lower_ascii ToString_primitive
              backend [SetAuthToken "test-auth-token"; Await GetCurrencies]
              (boot sdk) req) as (Hb & Ht & Hh).
  - vm_compute. left.
  - split; [exact Hb|]. split; [exact Ht|]. split.
    + apply (Hh "Content-Type"). discriminate.
    + apply (Hh "x-client"). discriminate.
Defined.

Lemma requests_carry_constructor_options_witness :
  let options :=
    {| baseURL := Some "https://your-api-domain.com/api";
       timeout := Some (Number_of_Z 10000);
       headers := Some [("content-type", "application/vnd.api+json")] |} in
  let sdk := new_SwapSDK lower_ascii (Some options) in
  let req := outgoing lower_ascii (setAuthToken "your-jwt-or-privy-token" sdk)
               (table_4_2 (GetExchangeRate "zec" "sol" (Number_of_Z 1))) in
  cfg_baseURL req = "https://your-api-domain.com/api" /\
  cfg_timeout req = Number_of_Z 10000 /\
  cfg_headers req !! lower_ascii "Content-Type" = Some "application/vnd.api+json".
Proof.
  intros options sdk req.
  destruct (requests_carry_constructor_options lower_ascii ToString_primitive
              (always timed_out) (Some options)
              [SetAuthToken "your-jwt-or-privy-token"; Await GetCurrencies;
               Await (GetExchangeRate "zec" "sol" (Number_of_Z 1))] req)
    as (Hb & Ht & _ & Hcaller).
  - discriminate.
  - vm_compute. right. left.
  - split; [exact Hb|]. split; [exact Ht|].
    apply (Hcaller "content-type" "application/vnd.api+json").
    + apply elem_of_cons. left. reflexivity.
    + reflexivity.
    + intros k' v' H Hk. unfold options in H. in_list H. reflexivity.
Defined.


Lemma non_object_body_is_unknown_error_witness :
  let body := JStr "<html>502 Bad Gateway</html>" in
  fst (call lower_ascii ToString_primitive (always (bad_request body))
         GetSwapHistory (boot (test_sdk lower_ascii))) =
  Rejected (Thrown_SwapAPIError
    {| name := "SwapAPIError"; message := "Unknown error occurred";
       code := JUndefined |}).
Proof.
  intros body.
  destruct (non_object_body_is_unknown_error lower_ascii ToString_primitive
              (always (bad_request body)) GetSwapHistory
              (boot (test_sdk lower_ascii))) as (req & _ & Hrejects).
  apply (Hrejects
           {| error_message := "Request failed with status code 400";
              error_request := Some request_object;
              error_response := Some {| status := 400; data := body |} |}
           {| status := 400; data := body |});
    try reflexivity.
  intros props. discriminate.
Defined.

Lemma code_comes_from_response_body_witness :
  let body :=
    JObj {[ "message" := JStr "Invalid parameters";
            "code" := JStr "INVALID_PARAMS" ]} in
  let backend := always (bad_request body) in
  let w := boot (test_sdk lower_ascii) in
  exists req error response props,
    dispatches (call lower_ascii ToString_primitive backend GetCurrencies) w req /\
    backend (wire w) req = Fails error /\
    error_response error = Some response /\
    data response = JObj props /\
    props !! "code" = Some (JStr "INVALID_PARAMS").
Proof.
  intros body backend w.
  apply (code_comes_from_response_body lower_ascii ToString_primitive backend
           GetCurrencies w
           {| name := "SwapAPIError"; message := "Invalid parameters";
              code := JStr "INVALID_PARAMS" |}).
  - reflexivity.
  - discriminate.
Defined.

Lemma typed_failures_reject_with_SwapAPIError_witness :
  let body := JObj {[ "error" := JStr "Bad Request" ]} in
  exists x,
    fst (call lower_ascii ToString_primitive (always (bad_request body))
           GetCurrencies (boot (test_sdk lower_ascii)))
    = Rejected (Thrown_SwapAPIError x) /\
    name x = "SwapAPIError" /\ message x <> "".
Proof.
  intros body.
  destruct (typed_failures_reject_with_SwapAPIError lower_ascii
              ToString_primitive (always (bad_request body)) GetCurrencies
              (boot (test_sdk lower_ascii))) as (req & _ & Hrejects).
  apply (Hrejects
           {| error_message := "Request failed with status code 400";
              error_request := Some request_object;
              error_response := Some {| status := 400; data := body |} |}).
  - reflexivity.
  - intros response [= <-]. split; reflexivity.
Defined.

(** An object whose own [toString] property is no function has no string
    conversion. *)
Lemma TypeError_needs_unconvertible_field_witness :
  let body := JObj {[ "message" := JObj {[ "toString" := JNull ]} ]} in
  let backend := always (bad_request body) in
  let w := boot (test_sdk lower_ascii) in
  exists req error response v,
    dispatches (call lower_ascii ToString_primitive backend GetCurrencies) w req /\
    backend (wire w) req = Fails error /\
    error_response error = Some response /\
    (v = optional_member (data response) "message" \/
     v = optional_member (data response) "error") /\
    ToBoolean v = true /\
    (forall s, v <> JStr s) /\
    ToString_primitive v = None.
Proof.
  intros body backend w.
  apply (TypeError_needs_unconvertible_field lower_ascii ToString_primitive
           backend GetCurrencies w).
  reflexivity.
Defined.
